(** * The syslog log observer of twisted.python.logger

    A shallow embedding of [twisted/python/logger/_syslog.py]:
    [SyslogObserver.__init__], [SyslogObserver.__call__] and
    [textSyslogObserver], with the properties of the event-to-syslog
    translation proved about it. *)

From Stdlib Require Import ZArith String Ascii List Lia.
From stdpp Require Import base tactics option list strings gmap.

Local Open Scope Z_scope.
Local Open Scope string_scope.
Local Open Scope list_scope.

(** ** Python values held by an event *)

(** Modelled from the spec: the fixed enumeration of symbolic log levels
    (debug, info, warn, error, critical).  It is declared in
    [twisted/python/logger/_levels.py], which is imported by [_syslog.py]
    but is not one of the sources at hand. *)
Module LogLevel.
Inductive t : Set := debug | info | warn | error | critical.

#[global] Instance eq_dec : EqDecision t.
Proof. solve_decision. Defined.
End LogLevel.

(** The values an event dictionary holds under the keys the observer
    reads: [None], integers, text, log-level constants and failures.  A
    failure is represented by the text its [getTraceback()] renders. *)
Inductive value : Type :=
  | VNone
  | VInt (n : Z)
  | VText (s : string)
  | VLevel (l : LogLevel.t)
  | VFailure (traceback : string).

#[global] Instance value_eq_dec : EqDecision value.
Proof. solve_decision. Defined.

(** An event is a [dict] with string keys. *)
Abbreviation event := (gmap string value).

(** ** The [syslog] module of the Python standard library *)

(** The identity of a callable [(int, text) -> None] that can be stored in
    [SyslogObserver.syslog]: the platform's [syslog.syslog], or the
    [n]-th function supplied by a caller. *)
Inductive syslog_fn : Set :=
  | stdsyslog_syslog
  | supplied (n : nat).

#[global] Instance syslog_fn_eq_dec : EqDecision syslog_fn.
Proof. solve_decision. Defined.

(** Priority and facility constants, with the values of [<syslog.h>]. *)
Module stdsyslog.
Definition LOG_ALERT : Z := 1.
Definition LOG_ERR : Z := 3.
Definition LOG_WARNING : Z := 4.
Definition LOG_INFO : Z := 6.
Definition LOG_DEBUG : Z := 7.
Definition LOG_USER : Z := 8.
End stdsyslog.

(** ** Effects: exceptions, the event and the syslog session *)

Inductive exn : Set := KeyError | TypeError | ValueError | AttributeError.

#[global] Instance exn_eq_dec : EqDecision exn.
Proof. solve_decision. Defined.

Inductive outcome (A : Type) : Type :=
  | Returned (a : A)
  | Raised (e : exn).
Arguments Returned {A} a.
Arguments Raised {A} e.

(** One call [fn(bits, payload)] of a submission function. *)
Record submission : Set := Submission {
  via : syslog_fn;
  bits : Z;
  payload : string
}.

(** What a run can read and write: the event dictionary it was handed (by
    reference), the [openlog(prefix, options, facility)] calls and the
    submissions made so far, oldest first. *)
Record world : Type := World {
  the_event : event;
  opened : list (string * Z * Z);
  submitted : list submission
}.

Definition Py (A : Type) : Type := world -> outcome A * world.

Definition ret {A} (a : A) : Py A := fun w => (Returned a, w).

Definition bind {A B} (m : Py A) (k : A -> Py B) : Py B :=
  fun w => match m w with
           | (Returned a, w') => k a w'
           | (Raised e, w') => (Raised e, w')
           end.

Definition raise {A} (e : exn) : Py A := fun w => (Raised e, w).

(** A computation that neither reads nor writes the world. *)
Definition lift {A} (o : outcome A) : Py A := fun w => (o, w).

(** [try: body except e: handler] *)
Definition try_except {A} (body : Py A) (e : exn) (handler : Py A) : Py A :=
  fun w => match body w with
           | (Raised e', w') =>
               if decide (e' = e) then handler w' else (Raised e', w')
           | r => r
           end.

#[global] Instance Py_ret : MRet Py := @ret.
#[global] Instance Py_bind : MBind Py := fun A B k m => bind m k.

(** [key in event] *)
Definition contains (key : string) : Py bool :=
  fun w => (Returned (bool_decide (is_Some (the_event w !! key))), w).

(** [event[key]] *)
Definition getitem (key : string) : Py value :=
  fun w => match the_event w !! key with
           | Some v => (Returned v, w)
           | None => (Raised KeyError, w)
           end.

Definition openlog (prefix : string) (options facility : Z) : Py unit :=
  fun w => (Returned tt,
            World (the_event w) (opened w ++ [(prefix, options, facility)])
                  (submitted w)).

(** Calling the function stored in [self.syslog]. *)
Definition call_syslog (fn : syslog_fn) (b : Z) (text : string) : Py unit :=
  fun w => (Returned tt,
            World (the_event w) (opened w)
                  (submitted w ++ [Submission fn b text])).

(** ** Text *)

Definition nl : string := String "010" "".
Definition tab : string := String "009" "".

(** [text.split('\n')]: one piece more than there are newlines. *)
Fixpoint split_nl (text : string) : list string :=
  match text with
  | EmptyString => [""]
  | String c rest =>
      if Ascii.eqb c "010" then "" :: split_nl rest
      else match split_nl rest with
           | piece :: pieces => String c piece :: pieces
           | [] => [String c ""]
           end
  end.

(** [lines[-1:]] *)
Definition last_slice (lines : list string) : list string :=
  match last lines with
  | Some l => [l]
  | None => []
  end.

(** [while lines[-1:] == ['']: lines.pop()], run for at most [fuel]
    iterations.  Every iteration removes one element, so [length lines]
    iterations are always enough ([pop_loop_exits] below). *)
Fixpoint pop_loop (fuel : nat) (lines : list string) : list string :=
  match fuel with
  | O => lines
  | S fuel' =>
      if decide (last_slice lines = [""])
      then pop_loop fuel' (removelast lines)
      else lines
  end.

Definition pop_trailing (lines : list string) : list string :=
  pop_loop (length lines) lines.

(** ** The module [_syslog] *)

Definition DEFAULT_OPTIONS : Z := 0.
Definition DEFAULT_FACILITY : Z := stdsyslog.LOG_USER.

(** The dictionary [toSyslogLevelMapping], in the order it is written. *)
Definition toSyslogLevelMapping : list (value * Z) :=
  [ (VLevel LogLevel.debug, stdsyslog.LOG_DEBUG);
    (VLevel LogLevel.info, stdsyslog.LOG_INFO);
    (VLevel LogLevel.warn, stdsyslog.LOG_WARNING);
    (VLevel LogLevel.error, stdsyslog.LOG_ERR);
    (VLevel LogLevel.critical, stdsyslog.LOG_ALERT) ].

(** [d[key]] on a dictionary given by its items.  Every [value] can be
    hashed, so the lookup finds the key or raises [KeyError]. *)
Fixpoint dict_getitem (d : list (value * Z)) (key : value) : outcome Z :=
  match d with
  | [] => Raised KeyError
  | (k, v) :: d' =>
      if decide (k = key) then Returned v else dict_getitem d' key
  end.

(** [failure.getTraceback()]; any other value has no such attribute. *)
Definition getTraceback (v : value) : outcome string :=
  match v with
  | VFailure traceback => Returned traceback
  | _ => Raised AttributeError
  end.

(** The attributes of a [SyslogObserver] instance.  They can be assigned
    after construction, as the tests do with [observer.syslog]. *)
Record SyslogObserver : Type := {
  _encoding : option string;
  formatEvent : event -> option string;
  syslog : syslog_fn
}.

(** [self.formatEvent(event)] *)
Definition call_formatEvent (self : SyslogObserver) : Py (option string) :=
  fun w => (Returned (formatEvent self (the_event w)), w).

(** [SyslogObserver.__init__]; [self.openlog] is the class attribute
    [stdsyslog.openlog]. *)
Definition __init__ (formatEvent : event -> option string) (prefix : string)
    (options facility : Z) (syslog : syslog_fn) : Py SyslogObserver :=
  openlog prefix options facility;;
  let _encoding := if false then Some "utf-8" else None in
  mret {| _encoding := _encoding;
          formatEvent := formatEvent;
          syslog := stdsyslog_syslog |}.

(** Lines 95 to 98 of [__call__]: the priority set by the log level. *)
Definition priority_by_level : Py Z :=
  try_except
    (level ← getitem "log_level";
     lift (dict_getitem toSyslogLevelMapping level))
    KeyError
    (mret stdsyslog.LOG_INFO).

Section Observer.

(** [int(text)] of the Python runtime: the integer a text denotes, if
    it denotes one. *)
Variable int_of_text : string -> option Z.

(** [text.encode(encoding)] of the Python runtime. *)
Variable encode : string -> string -> string.

(** [int(v)] *)
Definition py_int (v : value) : outcome Z :=
  match v with
  | VInt n => Returned n
  | VText s => match int_of_text s with
               | Some n => Returned n
               | None => Raised ValueError
               end
  | _ => Raised TypeError
  end.

(** Lines 88 to 108 of [__call__]: the text and the priority. *)
Definition resolve (self : SyslogObserver) : Py (string * Z) :=
  text ← call_formatEvent self;
  let text := match text with None => "" | Some t => t end in
  priority ← priority_by_level;
  '(text, priority) ←
    (has_failure ← contains "log_failure";
     if has_failure : bool then
       failure ← getitem "log_failure";
       traceback ← lift (getTraceback failure);
       mret (String.concat nl [text; traceback], stdsyslog.LOG_ALERT)
     else
       has_priority ← contains "syslogPriority";
       if has_priority : bool then
         p ← getitem "syslogPriority";
         p ← lift (py_int p);
         mret (text, p)
       else mret (text, priority));
  let text := match _encoding self with
              | Some encoding => encode text encoding
              | None => text
              end in
  mret (text, priority).

(** The body of [for line in lines], with the flag [firstLine]. *)
Fixpoint for_lines (self : SyslogObserver) (text : string)
    (priority facility : Z) (firstLine : bool) (lines : list string)
    : Py unit :=
  match lines with
  | [] => mret tt
  | line :: lines' =>
      let '(firstLine, line) :=
        if firstLine then (false, line) else (firstLine, tab +:+ line) in
      call_syslog (syslog self) (Z.lor priority facility) text;;
      for_lines self text priority facility firstLine lines'
  end.

(** Lines 110 to 127 of [__call__]: the submissions. *)
Definition write (self : SyslogObserver) (text : string) (priority : Z)
    : Py unit :=
  if bool_decide (text ≠ "") then
    facility ← (has_facility ← contains "syslogFacility";
                if has_facility : bool then
                  f ← getitem "syslogFacility"; lift (py_int f)
                else mret 0);
    let lines := pop_trailing (split_nl text) in
    for_lines self text priority facility true lines
  else mret tt.

(** [SyslogObserver.__call__]; its argument [event] is the dictionary
    [the_event] of the world it runs in. *)
Definition __call__ (self : SyslogObserver) : Py unit :=
  '(text, priority) ← resolve self;
  write self text priority.

End Observer.

(** ** [textSyslogObserver] *)

Section TextObserver.

(** What [formatTime] of [_format.py] is applied to. *)
Variable stamp : Type.

(** [formatTime(when, timeFormat)] of [_format.py]. *)
Variable formatTime : stamp -> option string -> string.

(** [formatEventAsClassicLogText(event, formatTime)] of [_format.py]. *)
Variable formatEventAsClassicLogText :
  event -> (stamp -> string) -> option string.

Definition textSyslogObserver (prefix : string) (options facility : Z)
    (timeFormat : option string) : Py SyslogObserver :=
  let formatEvent := fun event =>
    formatEventAsClassicLogText event (fun e => formatTime e timeFormat) in
  __init__ formatEvent prefix DEFAULT_OPTIONS DEFAULT_FACILITY
           stdsyslog_syslog.

End TextObserver.

(** ** Vocabulary of the specification *)

(** The elements of [lines] up to the last one that is not the empty
    string: all trailing empty strings dropped, interior ones kept. *)
Fixpoint drop_trailing_empty (lines : list string) : list string :=
  match lines with
  | [] => []
  | line :: rest =>
      match drop_trailing_empty rest with
      | [] => if decide (line = "") then [] else [line]
      | kept => line :: kept
      end
  end.

(** The lines a text is submitted for. *)
Definition retained_lines (text : string) : list string :=
  drop_trailing_empty (split_nl text).

(** The facility of an event: [int(event["syslogFacility"])] when the key
    is present, 0 otherwise. *)
Definition event_facility (int_of_text : string -> option Z) (ev : event)
    : outcome Z :=
  match ev !! "syslogFacility" with
  | Some v => py_int int_of_text v
  | None => Returned 0
  end.

(** The fixed table from symbolic levels to syslog priorities. *)
Definition level_priority (l : LogLevel.t) : Z :=
  match l with
  | LogLevel.debug => stdsyslog.LOG_DEBUG
  | LogLevel.info => stdsyslog.LOG_INFO
  | LogLevel.warn => stdsyslog.LOG_WARNING
  | LogLevel.error => stdsyslog.LOG_ERR
  | LogLevel.critical => stdsyslog.LOG_ALERT
  end.

(** The priority the level of an event stands for: its entry in the table
    when the level is one of the five, [LOG_INFO] when the event has no
    level or another value in its place. *)
Definition base_priority (ev : event) : Z :=
  match ev !! "log_level" with
  | Some (VLevel l) => level_priority l
  | _ => stdsyslog.LOG_INFO
  end.

(** The formatter's text, an absent one read as the empty text. *)
Definition formatted (self : SyslogObserver) (ev : event) : string :=
  match formatEvent self ev with
  | None => ""
  | Some t => t
  end.

(** The text as [__call__] encodes it; [__init__] sets no encoding. *)
Definition encoded (encode : string → string → string)
    (self : SyslogObserver) (text : string) : string :=
  match _encoding self with
  | Some encoding => encode text encoding
  | None => text
  end.

(** [keeps f m]: running [m] does not change the part [f] of the world,
    whether [m] returns or raises. *)
Definition keeps {A X} (f : world → X) (m : Py A) : Prop :=
  ∀ w, f (m w).2 = f w.

(** A Python runtime to evaluate examples with: [int] of an unsigned
    decimal numeral, and an encoding that leaves ASCII text as it is. *)
Fixpoint decimal_digits (acc : Z) (s : string) : option Z :=
  match s with
  | EmptyString => Some acc
  | String c rest =>
      let d := Z.of_nat (nat_of_ascii c) - 48 in
      if ((0 <=? d) && (d <=? 9))%Z then decimal_digits (10 * acc + d) rest
      else None
  end.

Definition int_of_decimal (s : string) : option Z :=
  match s with
  | EmptyString => None
  | _ => decimal_digits 0 s
  end.

Definition encode_ascii (text encoding : string) : string := text.

(** Observers and worlds to evaluate examples on: an observer as
    [__init__] leaves it, whose formatter returns [text] for every
    event, and a world in which nothing has been logged yet. *)
Definition observer_saying (text : option string) : SyslogObserver :=
  {| _encoding := None;
     formatEvent := λ _, text;
     syslog := stdsyslog_syslog |}.

Definition fresh (ev : event) : world := World ev [] [].

Definition hello_world : string := "hello," +:+ nl +:+ "world" +:+ nl +:+ nl.

Definition hello_observer : SyslogObserver := observer_saying (Some hello_world).

Definition cron_world : world := fresh {[ "syslogFacility" := VInt 9 ]}.

Definition silent_observer : SyslogObserver := observer_saying None.

Definition hi_observer : SyslogObserver := observer_saying (Some "hello").

Definition failure_world : world :=
  fresh {[ "log_failure" := VFailure "TB..." ]}.


Definition notice_world : world :=
  fresh (<[ "log_level" := VLevel LogLevel.error ]>
         {[ "syslogPriority" := VInt 5 ]}).

Definition warn_world : world :=
  fresh {[ "log_level" := VLevel LogLevel.warn ]}.

Definition trace_world : world := fresh {[ "log_level" := VText "trace" ]}.

Definition plain_world : world := fresh {[ "x" := VInt 1 ]}.

Definition named_priority_world : world :=
  fresh {[ "syslogPriority" := VText "high" ]}.

(** [SyslogObserver(formatEvent, "test_syslog", syslog=fn)(event)] with a
    formatter that returns ["hello"] and the module's default options and
    facility. *)
Definition observe_with (fn : syslog_fn) : Py unit :=
  self ← __init__ (λ _, Some "hello") "test_syslog"
           DEFAULT_OPTIONS DEFAULT_FACILITY fn;
  __call__ int_of_decimal encode_ascii self.

(** ** The inverse table, attribute assignment and the callers *)

(** [d[key] = v] on a dictionary given by its items: the value of a key
    that is there is replaced, a new key is added at the end. *)
Fixpoint dict_setitem (d : list (Z * value)) (key : Z) (v : value)
    : list (Z * value) :=
  match d with
  | [] => [(key, v)]
  | (k, v') :: d' =>
      if decide (k = key) then (k, v) :: d'
      else (k, v') :: dict_setitem d' key v
  end.

(** [dict(pairs)]: the pairs are entered one after the other. *)
Definition dict_of_pairs (pairs : list (Z * value)) : list (Z * value) :=
  foldl (λ d '(key, v), dict_setitem d key v) [] pairs.

(** [fromSyslogLevelMapping], built from the items of
    [toSyslogLevelMapping] with key and value exchanged. *)
Definition fromSyslogLevelMapping : list (Z * value) :=
  dict_of_pairs (map (λ '(key, v), (v, key)) toSyslogLevelMapping).

(** [d[key]] on a dictionary with integer keys. *)
Fixpoint priority_getitem (d : list (Z * value)) (key : Z) : outcome value :=
  match d with
  | [] => Raised KeyError
  | (k, v) :: d' =>
      if decide (k = key) then Returned v else priority_getitem d' key
  end.


(** [k] newline characters. *)
Fixpoint newlines (k : nat) : string :=
  match k with
  | O => ""
  | S k' => String "010" (newlines k')
  end.

(** The number of newline characters of a text. *)
Fixpoint count_nl (text : string) : nat :=
  match text with
  | EmptyString => O
  | String c rest =>
      if Ascii.eqb c "010" then S (count_nl rest) else count_nl rest
  end.

Section Callers.

Variable int_of_text : string → option Z.
Variable encode : string → string → string.

(** [SyslogObserver(formatEvent, prefix, options, facility, fn)(event)] *)
Definition construct_and_call (formatEvent : event → option string)
    (prefix : string) (options facility : Z) (fn : syslog_fn) : Py unit :=
  observer ← __init__ formatEvent prefix options facility fn;
  __call__ int_of_text encode observer.


Variable stamp : Type.
Variable formatTime : stamp → option string → string.
Variable formatEventAsClassicLogText :
  event → (stamp → string) → option string.


End Callers.






Definition named_facility_world : world :=
  fresh {[ "syslogFacility" := VText "cron" ]}.


(** ** Events that hold containers *)

(** The events above hold values that Python can hash.  [Wide] is the
    same code on events that can also hold a list, which cannot be
    hashed: looking a list up in [toSyslogLevelMapping] raises
    [TypeError], and [except KeyError] does not catch it. *)
Module Wide.

Inductive value : Type :=
  | VNone
  | VInt (n : Z)
  | VText (s : string)
  | VLevel (l : LogLevel.t)
  | VFailure (traceback : string)
  | VList (items : list value).

#[global] Instance value_eq_dec : EqDecision value.
Proof.
  refine (fix go (x y : value) {struct x} : Decision (x = y) :=
    match x, y with
    | VNone, VNone => left eq_refl
    | VInt a, VInt b => cast_if (decide (a = b))
    | VText a, VText b => cast_if (decide (a = b))
    | VLevel a, VLevel b => cast_if (decide (a = b))
    | VFailure a, VFailure b => cast_if (decide (a = b))
    | VList a, VList b => cast_if (@list_eq_dec _ go a b)
    | _, _ => right _
    end); congruence.
Defined.

(** [hash(v)] returns for every value but a list. *)
Definition hashable (v : value) : bool :=
  match v with
  | VList _ => false
  | _ => true
  end.

Abbreviation event := (gmap string value).

Record world : Type := World {
  the_event : event;
  opened : list (string * Z * Z);
  submitted : list submission
}.

Definition Py (A : Type) : Type := world -> outcome A * world.

Definition ret {A} (a : A) : Py A := fun w => (Returned a, w).

Definition bind {A B} (m : Py A) (k : A -> Py B) : Py B :=
  fun w => match m w with
           | (Returned a, w') => k a w'
           | (Raised e, w') => (Raised e, w')
           end.

Definition raise {A} (e : exn) : Py A := fun w => (Raised e, w).

Definition lift {A} (o : outcome A) : Py A := fun w => (o, w).

(** [try: body except e: handler] *)
Definition try_except {A} (body : Py A) (e : exn) (handler : Py A) : Py A :=
  fun w => match body w with
           | (Raised e', w') =>
               if decide (e' = e) then handler w' else (Raised e', w')
           | r => r
           end.

#[global] Instance Py_ret : MRet Py := @ret.
#[global] Instance Py_bind : MBind Py := fun A B k m => bind m k.

(** [key in event] *)
Definition contains (key : string) : Py bool :=
  fun w => (Returned (bool_decide (is_Some (the_event w !! key))), w).

(** [event[key]] *)
Definition getitem (key : string) : Py value :=
  fun w => match the_event w !! key with
           | Some v => (Returned v, w)
           | None => (Raised KeyError, w)
           end.

Definition openlog (prefix : string) (options facility : Z) : Py unit :=
  fun w => (Returned tt,
            World (the_event w) (opened w ++ [(prefix, options, facility)])
                  (submitted w)).

Definition call_syslog (fn : syslog_fn) (b : Z) (text : string) : Py unit :=
  fun w => (Returned tt,
            World (the_event w) (opened w)
                  (submitted w ++ [Submission fn b text])).

Definition toSyslogLevelMapping : list (value * Z) :=
  [ (VLevel LogLevel.debug, stdsyslog.LOG_DEBUG);
    (VLevel LogLevel.info, stdsyslog.LOG_INFO);
    (VLevel LogLevel.warn, stdsyslog.LOG_WARNING);
    (VLevel LogLevel.error, stdsyslog.LOG_ERR);
    (VLevel LogLevel.critical, stdsyslog.LOG_ALERT) ].

(** The entry of a dictionary whose key equals [key]. *)
Fixpoint dict_find (d : list (value * Z)) (key : value) : option Z :=
  match d with
  | [] => None
  | (k, v) :: d' => if decide (k = key) then Some v else dict_find d' key
  end.

(** [d[key]]: the key is hashed first, which raises [TypeError] for a
    list; a key that is not in the dictionary raises [KeyError]. *)
Definition dict_getitem (d : list (value * Z)) (key : value) : outcome Z :=
  if hashable key then
    match dict_find d key with
    | Some v => Returned v
    | None => Raised KeyError
    end
  else Raised TypeError.

(** [failure.getTraceback()]; any other value has no such attribute. *)
Definition getTraceback (v : value) : outcome string :=
  match v with
  | VFailure traceback => Returned traceback
  | _ => Raised AttributeError
  end.

Record SyslogObserver : Type := {
  _encoding : option string;
  formatEvent : event -> option string;
  syslog : syslog_fn
}.

(** [self.formatEvent(event)] *)
Definition call_formatEvent (self : SyslogObserver) : Py (option string) :=
  fun w => (Returned (formatEvent self (the_event w)), w).

(** [SyslogObserver.__init__] *)
Definition __init__ (formatEvent : event -> option string) (prefix : string)
    (options facility : Z) (syslog : syslog_fn) : Py SyslogObserver :=
  openlog prefix options facility;;
  let _encoding := if false then Some "utf-8" else None in
  mret {| _encoding := _encoding;
          formatEvent := formatEvent;
          syslog := stdsyslog_syslog |}.

(** Lines 95 to 98 of [__call__]: the priority set by the log level. *)
Definition priority_by_level : Py Z :=
  try_except
    (level ← getitem "log_level";
     lift (dict_getitem toSyslogLevelMapping level))
    KeyError
    (mret stdsyslog.LOG_INFO).

Section Observer.

Variable int_of_text : string -> option Z.
Variable encode : string -> string -> string.

(** [int(v)] *)
Definition py_int (v : value) : outcome Z :=
  match v with
  | VInt n => Returned n
  | VText s => match int_of_text s with
               | Some n => Returned n
               | None => Raised ValueError
               end
  | _ => Raised TypeError
  end.

(** Lines 88 to 108 of [__call__]: the text and the priority. *)
Definition resolve (self : SyslogObserver) : Py (string * Z) :=
  text ← call_formatEvent self;
  let text := match text with None => "" | Some t => t end in
  priority ← priority_by_level;
  '(text, priority) ←
    (has_failure ← contains "log_failure";
     if has_failure : bool then
       failure ← getitem "log_failure";
       traceback ← lift (getTraceback failure);
       mret (String.concat nl [text; traceback], stdsyslog.LOG_ALERT)
     else
       has_priority ← contains "syslogPriority";
       if has_priority : bool then
         p ← getitem "syslogPriority";
         p ← lift (py_int p);
         mret (text, p)
       else mret (text, priority));
  let text := match _encoding self with
              | Some encoding => encode text encoding
              | None => text
              end in
  mret (text, priority).

(** The body of [for line in lines], with the flag [firstLine]. *)
Fixpoint for_lines (self : SyslogObserver) (text : string)
    (priority facility : Z) (firstLine : bool) (lines : list string)
    : Py unit :=
  match lines with
  | [] => mret tt
  | line :: lines' =>
      let '(firstLine, line) :=
        if firstLine then (false, line) else (firstLine, tab +:+ line) in
      call_syslog (syslog self) (Z.lor priority facility) text;;
      for_lines self text priority facility firstLine lines'
  end.

(** Lines 110 to 127 of [__call__]: the submissions. *)
Definition write (self : SyslogObserver) (text : string) (priority : Z)
    : Py unit :=
  if bool_decide (text ≠ "") then
    facility ← (has_facility ← contains "syslogFacility";
                if has_facility : bool then
                  f ← getitem "syslogFacility"; lift (py_int f)
                else mret 0);
    let lines := pop_trailing (split_nl text) in
    for_lines self text priority facility true lines
  else mret tt.

(** [SyslogObserver.__call__] *)
Definition __call__ (self : SyslogObserver) : Py unit :=
  '(text, priority) ← resolve self;
  write self text priority.

End Observer.

(** The priority the [try] block leaves when the level can be hashed or
    is missing: the table's entry for one of the five levels, [LOG_INFO]
    otherwise. *)
Definition base_priority (ev : event) : Z :=
  match ev !! "log_level" with
  | Some (VLevel l) => level_priority l
  | _ => stdsyslog.LOG_INFO
  end.

(** The formatter's text, an absent one read as the empty text. *)
Definition formatted (self : SyslogObserver) (ev : event) : string :=
  match formatEvent self ev with
  | None => ""
  | Some t => t
  end.

(** The text as [__call__] encodes it; [__init__] sets no encoding. *)
Definition encoded (encode : string → string → string)
    (self : SyslogObserver) (text : string) : string :=
  match _encoding self with
  | Some encoding => encode text encoding
  | None => text
  end.

(** Observers and worlds to evaluate examples on. *)
Definition observer_saying (text : option string) : SyslogObserver :=
  {| _encoding := None;
     formatEvent := λ _, text;
     syslog := stdsyslog_syslog |}.

Definition fresh (ev : event) : world := World ev [] [].

Definition list_level_world : world := fresh {[ "log_level" := VList [] ]}.

Definition trace_world : world := fresh {[ "log_level" := VText "trace" ]}.

Definition failure_world : world :=
  fresh {[ "log_failure" := VFailure "TB..." ]}.

Definition named_priority_world : world :=
  fresh {[ "syslogPriority" := VText "high" ]}.

Definition notice_world : world :=
  fresh (<[ "log_level" := VLevel LogLevel.error ]>
         {[ "syslogPriority" := VInt 5 ]}).

End Wide.

(** ** Splitting and trimming *)

Lemma split_nl_nonempty text : split_nl text ≠ [].
Proof.
  destruct text as [|c rest]; simpl; [done|].
  destruct (Ascii.eqb c "010"); [done|].
  by destruct (split_nl rest).
Qed.

(** Joining the pieces with newlines gives the text back. *)
Lemma concat_split_nl text : String.concat nl (split_nl text) = text.
Proof.
  induction text as [|c rest IH]; simpl; [done|].
  destruct (Ascii.eqb_spec c "010") as [->|Hc].
  - pose proof (split_nl_nonempty rest) as Hne.
    destruct (split_nl rest) as [|piece pieces] eqn:E; [done|].
    simpl in *. by rewrite IH.
  - pose proof (split_nl_nonempty rest) as Hne.
    destruct (split_nl rest) as [|piece pieces] eqn:E; [done|].
    destruct pieces; simpl in *; by rewrite <- IH.
Qed.

Lemma last_slice_snoc lines line : last_slice (lines ++ [line]) = [line].
Proof. unfold last_slice. by rewrite last_snoc. Qed.

Lemma drop_trailing_empty_snoc_empty lines :
  drop_trailing_empty (lines ++ [""]) = drop_trailing_empty lines.
Proof.
  induction lines as [|line rest IH]; simpl; [done|].
  by rewrite IH.
Qed.

Lemma drop_trailing_empty_snoc lines line :
  line ≠ "" → drop_trailing_empty (lines ++ [line]) = lines ++ [line].
Proof.
  intros Hline.
  induction lines as [|l rest IH]; simpl.
  - by destruct (decide (line = "")).
  - rewrite IH. by destruct (rest ++ [line]) eqn:E; [destruct rest|].
Qed.

(** With enough fuel the loop computes [drop_trailing_empty]. *)
Lemma pop_loop_spec fuel lines :
  (length lines <= fuel)%nat → pop_loop fuel lines = drop_trailing_empty lines.
Proof.
  revert lines.
  induction fuel as [|fuel IH]; intros lines Hlen.
  - destruct lines; [done | simpl in Hlen; lia].
  - destruct lines as [|line lines _] using rev_ind; [done|].
    simpl. rewrite last_slice_snoc, removelast_last.
    rewrite length_app in Hlen. simpl in Hlen.
    destruct (decide ([line] = [""])) as [Heq|Hne].
    + injection Heq as ->.
      rewrite drop_trailing_empty_snoc_empty. apply IH. lia.
    + rewrite drop_trailing_empty_snoc; [done | congruence].
Qed.

Lemma pop_trailing_spec lines : pop_trailing lines = drop_trailing_empty lines.
Proof. by apply pop_loop_spec. Qed.

(** What is dropped is a run of empty strings at the end, and what is
    kept does not end with one: the loop has left its condition false. *)
Lemma drop_trailing_empty_decompose lines :
  ∃ k, lines = drop_trailing_empty lines ++ replicate k "".
Proof.
  induction lines as [|line lines [k Hk]] using rev_ind.
  - by exists 0%nat.
  - destruct (decide (line = "")) as [->|Hne].
    + exists (S k).
      rewrite drop_trailing_empty_snoc_empty, replicate_S_end, app_assoc.
      by rewrite <- Hk.
    + exists 0%nat. rewrite drop_trailing_empty_snoc by done.
      simpl. by rewrite app_nil_r.
Qed.

Lemma drop_trailing_empty_last lines :
  last (drop_trailing_empty lines) ≠ Some "".
Proof.
  induction lines as [|line lines IH] using rev_ind; [done|].
  destruct (decide (line = "")) as [->|Hne].
  - by rewrite drop_trailing_empty_snoc_empty.
  - rewrite drop_trailing_empty_snoc by done.
    rewrite last_snoc. congruence.
Qed.

Lemma pop_loop_exits lines : last_slice (pop_trailing lines) ≠ [""].
Proof.
  rewrite pop_trailing_spec. unfold last_slice.
  pose proof (drop_trailing_empty_last lines) as H.
  destruct (last (drop_trailing_empty lines)); congruence.
Qed.

(** ** Running the primitives *)

Lemma bind_returned {A B} (m : Py A) (k : A → Py B) w a w' :
  m w = (Returned a, w') → (m ≫= k) w = k a w'.
Proof. intros H. unfold mbind, Py_bind, bind. by rewrite H. Qed.

Lemma bind_raised {A B} (m : Py A) (k : A → Py B) w e w' :
  m w = (Raised e, w') → (m ≫= k) w = (Raised e, w').
Proof. intros H. unfold mbind, Py_bind, bind. by rewrite H. Qed.

Lemma contains_present key w v :
  the_event w !! key = Some v → contains key w = (Returned true, w).
Proof. intros H. unfold contains. by rewrite H. Qed.

Lemma contains_absent key w :
  the_event w !! key = None → contains key w = (Returned false, w).
Proof. intros H. unfold contains. by rewrite H. Qed.

Lemma getitem_present key w v :
  the_event w !! key = Some v → getitem key w = (Returned v, w).
Proof. intros H. unfold getitem. by rewrite H. Qed.

Lemma getitem_absent key w :
  the_event w !! key = None → getitem key w = (Raised KeyError, w).
Proof. intros H. unfold getitem. by rewrite H. Qed.

(** ** The submission loop *)

Lemma for_lines_run self text priority facility lines :
  ∀ firstLine w,
    for_lines self text priority facility firstLine lines w =
    (Returned tt,
     World (the_event w) (opened w)
           (submitted w ++
            map (λ _, Submission (syslog self) (Z.lor priority facility) text)
                lines)).
Proof.
  induction lines as [|line lines IH]; intros firstLine w; simpl.
  - rewrite app_nil_r. by destruct w.
  - destruct firstLine;
      (erewrite bind_returned by reflexivity;
       rewrite IH; simpl; by rewrite <- app_assoc).
Qed.

(** ** What a computation leaves alone *)

Create HintDb frame discriminated.

Lemma keeps_ret {A X} (f : world → X) (a : A) : keeps f (mret a).
Proof. by intros w. Qed.

Lemma keeps_raise {A X} (f : world → X) e : keeps f (@raise A e).
Proof. by intros w. Qed.

Lemma keeps_lift {A X} (f : world → X) (o : outcome A) : keeps f (lift o).
Proof. by intros w. Qed.

Lemma keeps_bind {A B X} (f : world → X) (m : Py A) (k : A → Py B) :
  keeps f m → (∀ a, keeps f (k a)) → keeps f (m ≫= k).
Proof.
  intros Hm Hk w. unfold mbind, Py_bind, bind.
  specialize (Hm w). destruct (m w) as [[a|e] w']; simpl in *.
  - by rewrite Hk.
  - done.
Qed.

Lemma keeps_try_except {A X} (f : world → X) (body handler : Py A) e :
  keeps f body → keeps f handler → keeps f (try_except body e handler).
Proof.
  intros Hb Hh w. unfold try_except.
  specialize (Hb w). destruct (body w) as [[a|e'] w']; simpl in *; [done|].
  destruct (decide (e' = e)); simpl; [by rewrite Hh | done].
Qed.

Lemma keeps_contains {X} (f : world → X) key : keeps f (contains key).
Proof. by intros w. Qed.

Lemma keeps_getitem {X} (f : world → X) key : keeps f (getitem key).
Proof. intros w. unfold getitem. by destruct (the_event w !! key). Qed.

Lemma keeps_call_formatEvent {X} (f : world → X) self :
  keeps f (call_formatEvent self).
Proof. by intros w. Qed.

Lemma keeps_event_call_syslog fn b text :
  keeps the_event (call_syslog fn b text).
Proof. by intros w. Qed.

Lemma keeps_event_openlog prefix options facility :
  keeps the_event (openlog prefix options facility).
Proof. by intros w. Qed.

#[global] Hint Resolve keeps_ret keeps_raise keeps_lift keeps_try_except
  keeps_contains keeps_getitem keeps_call_formatEvent
  keeps_event_call_syslog keeps_event_openlog : frame.

(** Splits a computation along its binds and branches. *)
Ltac frame :=
  repeat first
    [ progress eauto with frame
    | apply keeps_bind
    | apply keeps_try_except
    | intros []
    | intro
    | match goal with
      | |- keeps _ (if ?b then _ else _) => destruct b
      | |- keeps _ (match ?x with _ => _ end) => destruct x
      end ].

Section ObserverFacts.

Variable int_of_text : string → option Z.
Variable encode : string → string → string.

Lemma keeps_event_for_lines self text priority facility lines :
  ∀ firstLine,
    keeps the_event (for_lines self text priority facility firstLine lines).
Proof.
  induction lines as [|line lines IH]; intros firstLine; simpl.
  - frame.
  - destruct firstLine; apply keeps_bind; frame.
Qed.

Lemma keeps_resolve {X} (f : world → X) self :
  keeps f (resolve int_of_text encode self).
Proof. unfold resolve. frame. Qed.

Lemma keeps_event_write self text priority :
  keeps the_event (write int_of_text self text priority).
Proof.
  unfold write. case_bool_decide; [|frame].
  apply keeps_bind; [frame|].
  intros facility. apply keeps_event_for_lines.
Qed.

End ObserverFacts.

(** ** Resolving text and priority *)

Lemma dict_getitem_level l :
  dict_getitem toSyslogLevelMapping (VLevel l) = Returned (level_priority l).
Proof. by destruct l. Qed.

Lemma dict_getitem_other v :
  (∀ l, v ≠ VLevel l) →
  dict_getitem toSyslogLevelMapping v = Raised KeyError.
Proof.
  intros Hv. simpl.
  repeat (case_decide; [by subst; edestruct Hv|]). done.
Qed.

(** The [try] block of [__call__] always leaves a priority: a missing
    level and a level outside the table both end in the [except] branch. *)
Lemma priority_by_level_run w :
  priority_by_level w = (Returned (base_priority (the_event w)), w).
Proof.
  unfold priority_by_level, try_except, base_priority.
  destruct (the_event w !! "log_level") as [v|] eqn:Hlevel.
  - erewrite bind_returned by by apply getitem_present.
    unfold lift.
    destruct v as [|n|s|l|tb];
      try (rewrite dict_getitem_other by done; done).
    by rewrite dict_getitem_level.
  - erewrite bind_raised by by apply getitem_absent.
    done.
Qed.

(** Unfolds the sequencing of a computation, so that the calls of the
    primitives can be rewritten with what they return. *)
Ltac py_unfold :=
  unfold mbind, Py_bind, bind, mret, Py_ret, ret, lift, raise,
    call_formatEvent.

Section ResolveFacts.

Variable int_of_text : string → option Z.
Variable encode : string → string → string.

Local Abbreviation resolve := (resolve int_of_text encode).
Local Abbreviation py_int := (py_int int_of_text).
Local Abbreviation encoded := (encoded encode).

Lemma resolve_failure self w traceback :
  the_event w !! "log_failure" = Some (VFailure traceback) →
  resolve self w =
  (Returned (encoded self (formatted self (the_event w) +:+ nl +:+ traceback),
             stdsyslog.LOG_ALERT), w).
Proof.
  intros Hfail. unfold resolve. py_unfold.
  rewrite priority_by_level_run.
  rewrite (contains_present _ _ _ Hfail), (getitem_present _ _ _ Hfail).
  reflexivity.
Qed.

Lemma resolve_override self w v n :
  the_event w !! "log_failure" = None →
  the_event w !! "syslogPriority" = Some v →
  py_int v = Returned n →
  resolve self w =
  (Returned (encoded self (formatted self (the_event w)), n), w).
Proof.
  intros Hfail Hprio Hint. unfold resolve. py_unfold.
  rewrite priority_by_level_run.
  rewrite (contains_absent _ _ Hfail).
  rewrite (contains_present _ _ _ Hprio), (getitem_present _ _ _ Hprio).
  by rewrite Hint.
Qed.

Lemma resolve_level self w :
  the_event w !! "log_failure" = None →
  the_event w !! "syslogPriority" = None →
  resolve self w =
  (Returned (encoded self (formatted self (the_event w)),
             base_priority (the_event w)), w).
Proof.
  intros Hfail Hprio. unfold resolve. py_unfold.
  rewrite priority_by_level_run.
  by rewrite (contains_absent _ _ Hfail), (contains_absent _ _ Hprio).
Qed.

End ResolveFacts.

(** ** Writing the lines *)

Lemma map_const_replicate {A B} (b : B) (l : list A) :
  map (λ _, b) l = replicate (length l) b.
Proof. induction l as [|a l IH]; simpl; [done | by rewrite IH]. Qed.

Section CallFacts.

Variable int_of_text : string → option Z.
Variable encode : string → string → string.

Local Abbreviation resolve := (resolve int_of_text encode).
Local Abbreviation write := (write int_of_text).
Local Abbreviation __call__ := (__call__ int_of_text encode).
Local Abbreviation event_facility := (event_facility int_of_text).

Lemma write_empty self priority w :
  write self "" priority w = (Returned tt, w).
Proof. done. Qed.

Lemma write_nonempty self text priority facility w :
  text ≠ "" →
  event_facility (the_event w) = Returned facility →
  write self text priority w =
  (Returned tt,
   World (the_event w) (opened w)
         (submitted w ++
          replicate (length (retained_lines text))
            (Submission (syslog self) (Z.lor priority facility) text))).
Proof.
  intros Htext Hfac. unfold write, event_facility in *.
  rewrite bool_decide_true by done. py_unfold.
  destruct (the_event w !! "syslogFacility") as [v|] eqn:Hkey.
  - rewrite (contains_present _ _ _ Hkey), (getitem_present _ _ _ Hkey).
    rewrite Hfac, for_lines_run, pop_trailing_spec.
    by rewrite map_const_replicate.
  - rewrite (contains_absent _ _ Hkey).
    injection Hfac as <-.
    rewrite for_lines_run, pop_trailing_spec.
    by rewrite map_const_replicate.
Qed.

Lemma write_facility_raises self text priority e w :
  text ≠ "" →
  event_facility (the_event w) = Raised e →
  write self text priority w = (Raised e, w).
Proof.
  intros Htext Hfac. unfold write, event_facility in *.
  rewrite bool_decide_true by done. py_unfold.
  destruct (the_event w !! "syslogFacility") as [v|] eqn:Hkey; [|done].
  rewrite (contains_present _ _ _ Hkey), (getitem_present _ _ _ Hkey).
  by rewrite Hfac.
Qed.

Lemma resolve_run self w r :
  (resolve self w).1 = r → resolve self w = (r, w).
Proof.
  intros <-. pose proof (keeps_resolve int_of_text encode id self w) as H.
  simpl in H. destruct (resolve self w) as [o w']. simpl in *.
  by subst.
Qed.

Lemma call_resolved self w text priority :
  (resolve self w).1 = Returned (text, priority) →
  __call__ self w = write self text priority w.
Proof.
  intros H. apply resolve_run in H. unfold __call__.
  by erewrite bind_returned by exact H.
Qed.

End CallFacts.

(** ** The observer's contract *)

Section Contract.

Variable int_of_text : string → option Z.
Variable encode : string → string → string.

Local Abbreviation resolve := (resolve int_of_text encode).
Local Abbreviation __call__ := (__call__ int_of_text encode).
Local Abbreviation event_facility := (event_facility int_of_text).
Local Abbreviation py_int := (py_int int_of_text).

(** C1: when the resolved text is not empty, every submission the call
    makes carries the whole resolved text as its second argument, never
    a single line of it and never a tab-indented line; when the
    facility is an integer there is one such submission per retained
    line. *)
Theorem submissions_carry_full_text self w text priority :
  (resolve self w).1 = Returned (text, priority) →
  text ≠ "" →
  ∃ new,
    submitted (__call__ self w).2 = submitted w ++ new ∧
    Forall (λ s, payload s = text) new ∧
    ∀ facility,
      event_facility (the_event w) = Returned facility →
      (__call__ self w).1 = Returned tt ∧
      payload <$> new = replicate (length (retained_lines text)) text.
Proof.
  intros Hres Htext. rewrite (call_resolved _ _ _ _ _ _ Hres).
  destruct (event_facility (the_event w)) as [facility|e] eqn:Hfac.
  - rewrite (write_nonempty _ _ _ _ _ _ Htext Hfac). simpl.
    eexists. split; [done|]. split.
    + by apply Forall_replicate.
    + intros ? [= <-]. split; [done|].
      by rewrite fmap_replicate.
  - rewrite (write_facility_raises _ _ _ _ _ _ Htext Hfac). simpl.
    exists []. split; [by rewrite app_nil_r|].
    split; [constructor | done].
Qed.

(** C2: when the resolved text is not empty, the call makes exactly one
    submission per line of the text split at its newlines with the
    trailing empty lines dropped, in order, each with the bits
    [priority | facility], the facility being [int] of the event's
    [syslogFacility] when it has one and 0 otherwise. *)
Theorem one_submission_per_line self w text priority facility :
  (resolve self w).1 = Returned (text, priority) →
  text ≠ "" →
  event_facility (the_event w) = Returned facility →
  ∃ new,
    __call__ self w =
      (Returned tt,
       World (the_event w) (opened w) (submitted w ++ new)) ∧
    length new = length (retained_lines text) ∧
    bits <$> new =
      replicate (length (retained_lines text)) (Z.lor priority facility).
Proof.
  intros Hres Htext Hfac. rewrite (call_resolved _ _ _ _ _ _ Hres).
  rewrite (write_nonempty _ _ _ _ _ _ Htext Hfac).
  eexists. split; [done|].
  by rewrite length_replicate, fmap_replicate.
Qed.


(** C4: with no failure and no [syslogPriority], a level that is one of
    the five symbolic levels gives the priority of the fixed table:
    debug to DEBUG, info to INFO, warn to WARNING, error to ERR,
    critical to ALERT. *)
Theorem level_gives_table_priority self w l :
  the_event w !! "log_level" = Some (VLevel l) →
  the_event w !! "log_failure" = None →
  the_event w !! "syslogPriority" = None →
  ∃ text,
    resolve self w =
    (Returned (text,
               match l with
               | LogLevel.debug => stdsyslog.LOG_DEBUG
               | LogLevel.info => stdsyslog.LOG_INFO
               | LogLevel.warn => stdsyslog.LOG_WARNING
               | LogLevel.error => stdsyslog.LOG_ERR
               | LogLevel.critical => stdsyslog.LOG_ALERT
               end), w).
Proof.
  intros Hlevel Hfail Hprio. eexists.
  rewrite (resolve_level _ _ _ _ Hfail Hprio).
  unfold base_priority. rewrite Hlevel. reflexivity.
Qed.


(** C9: a call leaves the event as it was, whether it returns or
    raises: no key is added, removed or given another value. *)
Theorem call_leaves_event_unchanged self w :
  the_event (__call__ self w).2 = the_event w.
Proof.
  revert w. change (keeps the_event (__call__ self)).
  apply keeps_bind; [apply keeps_resolve|].
  intros [text priority]. apply keeps_event_write.
Qed.

End Contract.

Lemma submissions_carry_full_text_witness :
  (resolve int_of_decimal encode_ascii hello_observer cron_world).1
    = Returned (hello_world, stdsyslog.LOG_INFO) ∧
  hello_world ≠ "" ∧
  ∃ new,
    submitted (__call__ int_of_decimal encode_ascii hello_observer cron_world).2
      = submitted cron_world ++ new ∧
    Forall (λ s, payload s = hello_world) new ∧
    ∀ facility,
      event_facility int_of_decimal (the_event cron_world)
        = Returned facility →
      (__call__ int_of_decimal encode_ascii hello_observer cron_world).1
        = Returned tt ∧
      payload <$> new
        = replicate (length (retained_lines hello_world)) hello_world.
Proof.
  split; [reflexivity|]. split; [discriminate|].
  apply (submissions_carry_full_text int_of_decimal encode_ascii
           hello_observer cron_world hello_world stdsyslog.LOG_INFO);
    [reflexivity | discriminate].
Defined.

Lemma one_submission_per_line_witness :
  (resolve int_of_decimal encode_ascii hello_observer cron_world).1
    = Returned (hello_world, stdsyslog.LOG_INFO) ∧
  hello_world ≠ "" ∧
  event_facility int_of_decimal (the_event cron_world) = Returned 9 ∧
  retained_lines hello_world = ["hello,"; "world"] ∧
  ∃ new,
    __call__ int_of_decimal encode_ascii hello_observer cron_world =
      (Returned tt,
       World (the_event cron_world) (opened cron_world)
             (submitted cron_world ++ new)) ∧
    length new = length (retained_lines hello_world) ∧
    bits <$> new = replicate (length (retained_lines hello_world))
                             (Z.lor stdsyslog.LOG_INFO 9).
Proof.
  split; [reflexivity|]. split; [discriminate|].
  split; [reflexivity|]. split; [reflexivity|].
  apply (one_submission_per_line int_of_decimal encode_ascii
           hello_observer cron_world hello_world stdsyslog.LOG_INFO 9);
    [reflexivity | discriminate | reflexivity].
Defined.


Lemma level_gives_table_priority_witness :
  the_event warn_world !! "log_level" = Some (VLevel LogLevel.warn) ∧
  the_event warn_world !! "log_failure" = None ∧
  the_event warn_world !! "syslogPriority" = None ∧
  ∃ text,
    resolve int_of_decimal encode_ascii hi_observer warn_world
      = (Returned (text, stdsyslog.LOG_WARNING), warn_world).
Proof.
  split; [reflexivity|]. split; [reflexivity|]. split; [reflexivity|].
  apply (level_gives_table_priority int_of_decimal encode_ascii
           hi_observer warn_world LogLevel.warn); reflexivity.
Defined.


(** ** Construction *)

Lemma init_run formatEvent prefix options facility fn w :
  __init__ formatEvent prefix options facility fn w =
  (Returned {| _encoding := None;
               formatEvent := formatEvent;
               syslog := stdsyslog_syslog |},
   World (the_event w) (opened w ++ [(prefix, options, facility)])
         (submitted w)).
Proof. reflexivity. Qed.

(** C8 fails on the code: [__init__] stores [stdsyslog.syslog] in
    [self.syslog] whatever function it is given, so an observer built
    with the function [supplied 0] submits to the system's [syslog]
    and never calls the function it was given. *)
Theorem supplied_syslog_is_not_called :
  observe_with (supplied 0) plain_world =
  (Returned tt,
   World (the_event plain_world)
     [("test_syslog", DEFAULT_OPTIONS, DEFAULT_FACILITY)]
     [Submission stdsyslog_syslog stdsyslog.LOG_INFO "hello"]).
Proof. reflexivity. Qed.

Section TextObserverFacts.

Variable stamp : Type.
Variable formatTime : stamp → option string → string.
Variable formatEventAsClassicLogText :
  event → (stamp → string) → option string.

Local Abbreviation text_observer :=
  (textSyslogObserver stamp formatTime formatEventAsClassicLogText).

(** C10: whatever [options] and [facility] it is given,
    [textSyslogObserver] opens the log with [DEFAULT_OPTIONS] and
    [DEFAULT_FACILITY], so the result does not depend on them; the
    prefix reaches [openlog] and the time format reaches the
    formatter. *)
Theorem text_observer_uses_module_defaults
    prefix options facility timeFormat w :
  (∃ self,
     text_observer prefix options facility timeFormat w =
       (Returned self,
        World (the_event w)
              (opened w ++ [(prefix, DEFAULT_OPTIONS, DEFAULT_FACILITY)])
              (submitted w)) ∧
     ∀ ev, formatEvent self ev =
           formatEventAsClassicLogText ev (λ e, formatTime e timeFormat)) ∧
  (∀ options' facility',
     text_observer prefix options' facility' timeFormat w =
     text_observer prefix options facility timeFormat w).
Proof.
  split; [|done].
  unfold textSyslogObserver. rewrite init_run.
  eexists. split; [reflexivity|]. done.
Qed.

End TextObserverFacts.

(** ** More on splitting and trimming *)

Lemma drop_trailing_empty_replicate lines k :
  drop_trailing_empty (lines ++ replicate k "") = drop_trailing_empty lines.
Proof.
  induction k as [|k IH]; simpl.
  - by rewrite app_nil_r.
  - rewrite <- IH.
    change ("" :: replicate k "") with (replicate (S k) "").
    rewrite replicate_S_end, app_assoc.
    apply drop_trailing_empty_snoc_empty.
Qed.

Lemma drop_trailing_empty_fixed lines :
  last lines ≠ Some "" → drop_trailing_empty lines = lines.
Proof.
  destruct lines as [|line lines _] using rev_ind; [done|].
  rewrite last_snoc. intros Hlast.
  apply drop_trailing_empty_snoc. congruence.
Qed.

(** X1: the [while] loop of [__call__] returns the one list [kept] that
    does not end with an empty string and that differs from [lines] by a
    run of empty strings at the end; empty strings before the last
    non-empty line stay. *)
Theorem pop_trailing_characterised (lines kept : list string) :
  pop_trailing lines = kept ↔
  last kept ≠ Some "" ∧ ∃ k, lines = kept ++ replicate k "".
Proof.
  rewrite pop_trailing_spec. split.
  - intros <-. split.
    + apply drop_trailing_empty_last.
    + apply drop_trailing_empty_decompose.
  - intros [Hlast [k ->]].
    rewrite drop_trailing_empty_replicate.
    by apply drop_trailing_empty_fixed.
Qed.

Lemma split_nl_app_nl text :
  split_nl (text +:+ nl) = split_nl text ++ [""].
Proof.
  induction text as [|c rest IH]; simpl; [done|].
  rewrite IH.
  destruct (Ascii.eqb c "010"); [done|].
  pose proof (split_nl_nonempty rest) as Hne.
  by destruct (split_nl rest).
Qed.

(** X2: a newline at the end of the text adds no line: the lines the
    loop keeps for [text + "\n"] are those it keeps for [text]. *)
Theorem trailing_newline_adds_no_line text :
  pop_trailing (split_nl (text +:+ nl)) = pop_trailing (split_nl text).
Proof.
  rewrite !pop_trailing_spec, split_nl_app_nl.
  apply drop_trailing_empty_snoc_empty.
Qed.

Lemma split_nl_newlines k : split_nl (newlines k) = replicate (S k) "".
Proof. induction k as [|k IH]; simpl; [done | by rewrite IH]. Qed.

Lemma concat_replicate_empty k :
  String.concat nl (replicate (S k) "") = newlines k.
Proof.
  induction k as [|k IH]; [done|].
  change (replicate (S (S k)) "") with ("" :: replicate (S k) "").
  change (String.concat nl ("" :: replicate (S k) ""))
    with ("" +:+ nl +:+ String.concat nl (replicate (S k) "")).
  by rewrite IH.
Qed.

(** X3: no line is kept exactly for the texts that consist of newline
    characters only, the empty text among them. *)
Theorem no_line_iff_only_newlines text :
  pop_trailing (split_nl text) = [] ↔ ∃ k, text = newlines k.
Proof.
  rewrite pop_trailing_spec. split.
  - intros Hnil.
    destruct (drop_trailing_empty_decompose (split_nl text)) as [k Hk].
    rewrite Hnil in Hk. simpl in Hk.
    destruct k as [|k]; [by destruct (split_nl_nonempty text)|].
    exists k. rewrite <- (concat_split_nl text), Hk.
    apply concat_replicate_empty.
  - intros [k ->]. rewrite split_nl_newlines.
    apply (drop_trailing_empty_replicate [] (S k)).
Qed.

Lemma split_nl_length text : length (split_nl text) = S (count_nl text).
Proof.
  induction text as [|c rest IH]; simpl; [done|].
  destruct (Ascii.eqb c "010"); simpl; [by rewrite IH|].
  pose proof (split_nl_nonempty rest) as Hne.
  destruct (split_nl rest); [done|]. simpl in *. done.
Qed.

Lemma split_nl_no_newline text :
  Forall (λ piece, count_nl piece = O) (split_nl text).
Proof.
  induction text as [|c rest IH]; simpl.
  - by repeat constructor.
  - destruct (Ascii.eqb c "010") eqn:Hc.
    + by constructor.
    + destruct (split_nl rest) as [|piece pieces]; simpl.
      * repeat constructor. simpl. by rewrite Hc.
      * inversion IH as [|? ? Hpiece Hpieces]; subst.
        constructor; [|done]. simpl. by rewrite Hc.
Qed.

(** X4: no kept line contains a newline, and there is at most one line
    more than the text has newlines. *)
Theorem kept_lines_are_lines text :
  Forall (λ line, count_nl line = O) (pop_trailing (split_nl text)) ∧
  (length (pop_trailing (split_nl text)) ≤ S (count_nl text))%nat.
Proof.
  rewrite pop_trailing_spec.
  destruct (drop_trailing_empty_decompose (split_nl text)) as [k Hk].
  split.
  - pose proof (split_nl_no_newline text) as Hall.
    rewrite Hk in Hall. by apply Forall_app in Hall as [Hkept _].
  - rewrite <- split_nl_length. rewrite Hk at 2.
    rewrite length_app. lia.
Qed.

Lemma newlines_snoc k : newlines (S k) = newlines k +:+ nl.
Proof.
  induction k as [|k IH]; [done|].
  change (String "010" (newlines (S k)) = newlines (S k) +:+ nl).
  rewrite IH at 1. reflexivity.
Qed.

Lemma string_app_empty_r (s : string) : s +:+ "" = s.
Proof.
  induction s as [|c s IH]; [done|].
  change (String c (s +:+ "") = String c s). by rewrite IH.
Qed.

Lemma string_app_assoc (a b c : string) : (a +:+ b) +:+ c = a +:+ (b +:+ c).
Proof.
  induction a as [|x a IH]; [done|].
  change (String x ((a +:+ b) +:+ c) = String x (a +:+ (b +:+ c))).
  by rewrite IH.
Qed.

Lemma concat_snoc_empty lines :
  lines ≠ [] →
  String.concat nl (lines ++ [""]) = String.concat nl lines +:+ nl.
Proof.
  induction lines as [|line lines IH]; [done|]. intros _.
  destruct lines as [|line' lines].
  - simpl. by rewrite string_app_empty_r.
  - change (String.concat nl ((line :: line' :: lines) ++ [""]))
      with (line +:+ nl +:+ String.concat nl ((line' :: lines) ++ [""])).
    rewrite IH by done.
    change (String.concat nl (line :: line' :: lines))
      with (line +:+ nl +:+ String.concat nl (line' :: lines)).
    by rewrite !string_app_assoc.
Qed.

Lemma concat_app_replicate_empty lines k :
  ∃ j, String.concat nl (lines ++ replicate k "")
       = String.concat nl lines +:+ newlines j.
Proof.
  induction k as [|k [j IH]].
  - exists O. simpl. by rewrite app_nil_r, string_app_empty_r.
  - rewrite replicate_S_end, app_assoc.
    destruct (decide (lines ++ replicate k "" = [])) as [Hnil|Hne].
    + rewrite Hnil. apply app_eq_nil in Hnil as [-> _]. by exists O.
    + exists (S j).
      rewrite concat_snoc_empty, IH, newlines_snoc by done.
      by rewrite string_app_assoc.
Qed.

(** X5: the kept lines joined by newlines are the text without the
    newlines at its end: nothing else is lost by splitting and
    trimming. *)
Theorem text_is_lines_and_newlines text :
  ∃ k,
    text = String.concat nl (pop_trailing (split_nl text)) +:+ newlines k.
Proof.
  rewrite pop_trailing_spec.
  destruct (drop_trailing_empty_decompose (split_nl text)) as [k Hk].
  destruct (concat_app_replicate_empty
              (drop_trailing_empty (split_nl text)) k) as [j Hj].
  exists j. rewrite <- Hj, <- Hk. by rewrite concat_split_nl.
Qed.

(** ** Errors and what a call leaves alone *)

Section ErrorFacts.

Variable int_of_text : string → option Z.
Variable encode : string → string → string.

Local Abbreviation resolve := (resolve int_of_text encode).
Local Abbreviation write := (write int_of_text).
Local Abbreviation __call__ := (__call__ int_of_text encode).
Local Abbreviation event_facility := (event_facility int_of_text).
Local Abbreviation py_int := (py_int int_of_text).

Lemma py_int_raises v e : py_int v = Raised e → e ≠ KeyError.
Proof.
  destruct v as [|n|s|l|tb]; simpl; try congruence.
  destruct (int_of_text s); congruence.
Qed.

Lemma getTraceback_raises v e :
  getTraceback v = Raised e → e = AttributeError.
Proof. destruct v; simpl; congruence. Qed.

Lemma resolve_failure_raises self w v e :
  the_event w !! "log_failure" = Some v →
  getTraceback v = Raised e →
  resolve self w = (Raised e, w).
Proof.
  intros Hfail Htb. unfold resolve. py_unfold.
  rewrite priority_by_level_run.
  rewrite (contains_present _ _ _ Hfail), (getitem_present _ _ _ Hfail).
  by rewrite Htb.
Qed.

Lemma resolve_override_raises self w v e :
  the_event w !! "log_failure" = None →
  the_event w !! "syslogPriority" = Some v →
  py_int v = Raised e →
  resolve self w = (Raised e, w).
Proof.
  intros Hfail Hprio Hint. unfold resolve. py_unfold.
  rewrite priority_by_level_run.
  rewrite (contains_absent _ _ Hfail).
  rewrite (contains_present _ _ _ Hprio), (getitem_present _ _ _ Hprio).
  by rewrite Hint.
Qed.

Lemma resolve_outcome self w :
  (∃ r, resolve self w = (Returned r, w)) ∨
  (∃ e, e ≠ KeyError ∧ resolve self w = (Raised e, w)).
Proof.
  destruct (the_event w !! "log_failure") as [v|] eqn:Hfail.
  - destruct (getTraceback v) as [tb|e] eqn:Htb.
    + left. destruct v; try discriminate. injection Htb as ->.
      eexists. by apply resolve_failure.
    + right. exists e. split.
      * by rewrite (getTraceback_raises _ _ Htb).
      * by eapply resolve_failure_raises.
  - destruct (the_event w !! "syslogPriority") as [v|] eqn:Hprio.
    + destruct (py_int v) as [n|e] eqn:Hint.
      * left. eexists. by eapply resolve_override.
      * right. exists e. split; [by eapply py_int_raises|].
        by eapply resolve_override_raises.
    + left. eexists. by apply resolve_level.
Qed.

Lemma call_resolve_raises self w e :
  resolve self w = (Raised e, w) → __call__ self w = (Raised e, w).
Proof.
  intros H. unfold __call__. by erewrite bind_raised by exact H.
Qed.

Lemma event_facility_raises ev e :
  event_facility ev = Raised e → e ≠ KeyError.
Proof.
  unfold event_facility.
  destruct (ev !! "syslogFacility"); [apply py_int_raises | done].
Qed.

(** The three ways a call can end. *)
Lemma call_cases self w :
  (∃ e, e ≠ KeyError ∧ __call__ self w = (Raised e, w)) ∨
  (∃ priority,
     (resolve self w).1 = Returned ("", priority) ∧
     __call__ self w = (Returned tt, w)) ∨
  (∃ text priority facility,
     (resolve self w).1 = Returned (text, priority) ∧
     text ≠ "" ∧
     event_facility (the_event w) = Returned facility ∧
     __call__ self w =
       (Returned tt,
        World (the_event w) (opened w)
              (submitted w ++
               replicate (length (retained_lines text))
                 (Submission (syslog self) (Z.lor priority facility) text)))).
Proof.
  destruct (resolve_outcome self w) as [[[text priority] Hres]|[e [He Hres]]].
  - pose proof (f_equal fst Hres) as Hfst. simpl in Hfst.
    rewrite (call_resolved _ _ _ _ _ _ Hfst).
    destruct (decide (text = "")) as [->|Htext].
    + right. left. exists priority. by rewrite write_empty.
    + destruct (event_facility (the_event w)) as [facility|e] eqn:Hfac.
      * right. right. exists text, priority, facility.
        by rewrite (write_nonempty _ _ _ _ _ _ Htext Hfac).
      * left. exists e. split; [by eapply event_facility_raises|].
        by apply write_facility_raises.
  - left. exists e. split; [done|]. by apply call_resolve_raises.
Qed.

(** X8: a call never raises [KeyError]: every key it reads is either
    tested with [in] first or read inside the [try] block. *)
Theorem call_never_raises_KeyError self w :
  (__call__ self w).1 ≠ Raised KeyError.
Proof.
  destruct (call_cases self w)
    as [[e' [He ->]]|[[p [_ ->]]|[text [p [f [_ [_ [_ ->]]]]]]]];
    simpl; congruence.
Qed.



(** X11: a [syslogFacility] that [int] rejects matters only when there
    is text: with an empty resolved text the facility is not read and
    the call returns, otherwise the call raises what [int] raises and
    submits nothing. *)
Theorem bad_facility_raises_if_text self w text priority e :
  (resolve self w).1 = Returned (text, priority) →
  event_facility (the_event w) = Raised e →
  __call__ self w =
    if decide (text = "") then (Returned tt, w) else (Raised e, w).
Proof.
  intros Hres Hfac. rewrite (call_resolved _ _ _ _ _ _ Hres).
  destruct (decide (text = "")) as [->|Htext].
  - apply write_empty.
  - by apply write_facility_raises.
Qed.

(** X12: whatever its outcome, a call leaves the [openlog] calls and the
    earlier submissions as they are and adds submissions that all go
    through the function in [self.syslog] with the same bits and the
    same text. *)
Theorem call_appends_through_own_syslog self w :
  ∃ n b text,
    (__call__ self w).2 =
    World (the_event w) (opened w)
          (submitted w ++ replicate n (Submission (syslog self) b text)).
Proof.
  destruct (call_cases self w)
    as [[e' [_ ->]]|[[p [_ ->]]|[text [p [f [_ [_ [_ ->]]]]]]]]; simpl.
  - exists O, 0, "". simpl. rewrite app_nil_r. by destruct w.
  - exists O, 0, "". simpl. rewrite app_nil_r. by destruct w.
  - by eexists _, _, _.
Qed.

End ErrorFacts.

(** ** Construction, assignment and call *)




Section CallerFacts.

Variable int_of_text : string → option Z.
Variable encode : string → string → string.

Local Abbreviation __call__ := (__call__ int_of_text encode).
Local Abbreviation event_facility := (event_facility int_of_text).




End CallerFacts.

(** X16: the two level tables are inverse to each other: a key has a
    priority in [toSyslogLevelMapping] exactly when
    [fromSyslogLevelMapping] has that key for the priority.  No level is
    lost by the inversion, the five priorities being distinct. *)
Theorem level_tables_are_inverse (key : value) (priority : Z) :
  dict_getitem toSyslogLevelMapping key = Returned priority ↔
  priority_getitem fromSyslogLevelMapping priority = Returned key.
Proof.
  split.
  - destruct key as [|n|s|l|tb];
      try (rewrite dict_getitem_other by done; discriminate).
    rewrite dict_getitem_level. intros [= <-]. by destruct l.
  - assert (fromSyslogLevelMapping =
            [ (stdsyslog.LOG_DEBUG, VLevel LogLevel.debug);
              (stdsyslog.LOG_INFO, VLevel LogLevel.info);
              (stdsyslog.LOG_WARNING, VLevel LogLevel.warn);
              (stdsyslog.LOG_ERR, VLevel LogLevel.error);
              (stdsyslog.LOG_ALERT, VLevel LogLevel.critical) ]) as ->
      by reflexivity.
    simpl.
    repeat (case_decide; [subst; by intros [= <-]|]).
    discriminate.
Qed.

Section TextCallerFacts.

Variable int_of_text : string → option Z.
Variable encode : string → string → string.
Variable stamp : Type.
Variable formatTime : stamp → option string → string.
Variable formatEventAsClassicLogText :
  event → (stamp → string) → option string.


End TextCallerFacts.

Section MoreCallFacts.

Variable int_of_text : string → option Z.
Variable encode : string → string → string.

Local Abbreviation resolve := (resolve int_of_text encode).
Local Abbreviation __call__ := (__call__ int_of_text encode).
Local Abbreviation event_facility := (event_facility int_of_text).


(** X19: for an event without [syslogFacility] the bits of every
    submission are the resolved priority itself: the facility given to
    the constructor goes to [openlog] only and is not or-ed in. *)
Theorem no_facility_submits_priority self w text priority :
  (resolve self w).1 = Returned (text, priority) →
  the_event w !! "syslogFacility" = None →
  __call__ self w =
    (Returned tt,
     World (the_event w) (opened w)
       (submitted w ++
        replicate (length (retained_lines text))
          (Submission (syslog self) priority text))).
Proof.
  intros Hres Hkey. rewrite (call_resolved _ _ _ _ _ _ Hres).
  destruct (decide (text = "")) as [->|Htext].
  - rewrite write_empty. simpl. rewrite app_nil_r. by destruct w.
  - rewrite (write_nonempty _ _ _ _ 0 _ Htext).
    + by rewrite Z.lor_0_r.
    + unfold event_facility. by rewrite Hkey.
Qed.

End MoreCallFacts.



Lemma bad_facility_raises_if_text_witness :
  (resolve int_of_decimal encode_ascii hi_observer named_facility_world).1
    = Returned ("hello", stdsyslog.LOG_INFO) ∧
  event_facility int_of_decimal (the_event named_facility_world)
    = Raised ValueError ∧
  __call__ int_of_decimal encode_ascii hi_observer named_facility_world
    = (Raised ValueError, named_facility_world) ∧
  __call__ int_of_decimal encode_ascii silent_observer named_facility_world
    = (Returned tt, named_facility_world).
Proof.
  split; [reflexivity|]. split; [reflexivity|]. split.
  - apply (bad_facility_raises_if_text int_of_decimal encode_ascii
             hi_observer named_facility_world "hello" stdsyslog.LOG_INFO
             ValueError); reflexivity.
  - apply (bad_facility_raises_if_text int_of_decimal encode_ascii
             silent_observer named_facility_world "" stdsyslog.LOG_INFO
             ValueError); reflexivity.
Defined.





Lemma no_facility_submits_priority_witness :
  (resolve int_of_decimal encode_ascii hello_observer notice_world).1
    = Returned (hello_world, 5) ∧
  the_event notice_world !! "syslogFacility" = None ∧
  __call__ int_of_decimal encode_ascii hello_observer notice_world =
    (Returned tt,
     World (the_event notice_world) []
       [ Submission stdsyslog_syslog 5 hello_world;
         Submission stdsyslog_syslog 5 hello_world ]).
Proof.
  split; [reflexivity|]. split; [reflexivity|].
  apply (no_facility_submits_priority int_of_decimal encode_ascii
           hello_observer notice_world hello_world 5); reflexivity.
Defined.

(** ** Events that hold containers: the level lookup and the empty text *)

Lemma wide_contains_present key w v :
  Wide.the_event w !! key = Some v →
  Wide.contains key w = (Returned true, w).
Proof. intros H. unfold Wide.contains. by rewrite H. Qed.

Lemma wide_contains_absent key w :
  Wide.the_event w !! key = None →
  Wide.contains key w = (Returned false, w).
Proof. intros H. unfold Wide.contains. by rewrite H. Qed.

Lemma wide_getitem_present key w v :
  Wide.the_event w !! key = Some v → Wide.getitem key w = (Returned v, w).
Proof. intros H. unfold Wide.getitem. by rewrite H. Qed.

Lemma wide_getitem_absent key w :
  Wide.the_event w !! key = None →
  Wide.getitem key w = (Raised KeyError, w).
Proof. intros H. unfold Wide.getitem. by rewrite H. Qed.

Lemma wide_dict_getitem_level l :
  Wide.dict_getitem Wide.toSyslogLevelMapping (Wide.VLevel l)
  = Returned (level_priority l).
Proof. by destruct l. Qed.

Lemma wide_dict_getitem_other v :
  Wide.hashable v = true →
  (∀ l, v ≠ Wide.VLevel l) →
  Wide.dict_getitem Wide.toSyslogLevelMapping v = Raised KeyError.
Proof.
  intros Hhash Hv.
  destruct v as [|n|s|l|tb|items]; try done.
  by destruct (Hv l).
Qed.

Lemma wide_dict_getitem_unhashable v :
  Wide.hashable v = false →
  Wide.dict_getitem Wide.toSyslogLevelMapping v = Raised TypeError.
Proof. intros Hhash. unfold Wide.dict_getitem. by rewrite Hhash. Qed.

(** Unfolds the sequencing of a computation on wide events. *)
Ltac wide_unfold :=
  unfold mbind, mret, Wide.Py_bind, Wide.Py_ret, Wide.bind, Wide.ret,
    Wide.lift, Wide.raise, Wide.call_formatEvent.

Lemma wide_priority_by_level_run w :
  (∀ v, Wide.the_event w !! "log_level" = Some v → Wide.hashable v = true) →
  Wide.priority_by_level w
  = (Returned (Wide.base_priority (Wide.the_event w)), w).
Proof.
  intros Hhash. unfold Wide.priority_by_level, Wide.try_except.
  unfold Wide.base_priority. wide_unfold.
  destruct (Wide.the_event w !! "log_level") as [v|] eqn:Hlevel.
  - rewrite (wide_getitem_present _ _ _ Hlevel).
    specialize (Hhash v eq_refl).
    destruct v as [|n|s|l|tb|items];
      try (rewrite wide_dict_getitem_other by done; done); try done.
    by rewrite wide_dict_getitem_level.
  - by rewrite (wide_getitem_absent _ _ Hlevel).
Qed.

Lemma wide_priority_by_level_unhashable w v :
  Wide.the_event w !! "log_level" = Some v →
  Wide.hashable v = false →
  Wide.priority_by_level w = (Raised TypeError, w).
Proof.
  intros Hlevel Hhash. unfold Wide.priority_by_level, Wide.try_except.
  wide_unfold. rewrite (wide_getitem_present _ _ _ Hlevel).
  by rewrite wide_dict_getitem_unhashable.
Qed.

Section WideFacts.

Variable int_of_text : string → option Z.
Variable encode : string → string → string.

Local Abbreviation wresolve := (Wide.resolve int_of_text encode).
Local Abbreviation wwrite := (Wide.write int_of_text).
Local Abbreviation wcall := (Wide.__call__ int_of_text encode).
Local Abbreviation wint := (Wide.py_int int_of_text).

Lemma wide_resolve_level self w :
  (∀ v, Wide.the_event w !! "log_level" = Some v → Wide.hashable v = true) →
  Wide.the_event w !! "log_failure" = None →
  Wide.the_event w !! "syslogPriority" = None →
  wresolve self w =
  (Returned (Wide.encoded encode self (Wide.formatted self (Wide.the_event w)),
             Wide.base_priority (Wide.the_event w)), w).
Proof.
  intros Hhash Hfail Hprio. unfold Wide.resolve. wide_unfold.
  rewrite (wide_priority_by_level_run _ Hhash).
  by rewrite (wide_contains_absent _ _ Hfail), (wide_contains_absent _ _ Hprio).
Qed.

Lemma wide_resolve_override self w v n :
  (∀ v, Wide.the_event w !! "log_level" = Some v → Wide.hashable v = true) →
  Wide.the_event w !! "log_failure" = None →
  Wide.the_event w !! "syslogPriority" = Some v →
  wint v = Returned n →
  wresolve self w =
  (Returned (Wide.encoded encode self (Wide.formatted self (Wide.the_event w)),
             n), w).
Proof.
  intros Hhash Hfail Hprio Hint. unfold Wide.resolve. wide_unfold.
  rewrite (wide_priority_by_level_run _ Hhash).
  rewrite (wide_contains_absent _ _ Hfail).
  rewrite (wide_contains_present _ _ _ Hprio),
    (wide_getitem_present _ _ _ Hprio).
  by rewrite Hint.
Qed.

Lemma wide_call_resolved self w text priority :
  wresolve self w = (Returned (text, priority), w) →
  wcall self w = wwrite self text priority w.
Proof.
  intros H. unfold Wide.__call__. wide_unfold. by rewrite H.
Qed.

(** C5, as the code has it: with no failure and no [syslogPriority], an
    event without a level, or with a value in its place that can be
    hashed and is none of the five symbolic levels, resolves to
    [LOG_INFO]: the resolution returns, it does not raise. *)
Theorem hashable_unknown_level_gives_info self w :
  (∀ l, Wide.the_event w !! "log_level" ≠ Some (Wide.VLevel l)) →
  (∀ v, Wide.the_event w !! "log_level" = Some v → Wide.hashable v = true) →
  Wide.the_event w !! "log_failure" = None →
  Wide.the_event w !! "syslogPriority" = None →
  ∃ text, wresolve self w = (Returned (text, stdsyslog.LOG_INFO), w).
Proof.
  intros Hlevel Hhash Hfail Hprio. eexists.
  rewrite (wide_resolve_level _ _ Hhash Hfail Hprio).
  unfold Wide.base_priority.
  destruct (Wide.the_event w !! "log_level") as [[| | |l| |]|] eqn:E;
    try done.
  by destruct (Hlevel l).
Qed.

(** C7, as the code has it: for an observer without encoding, as
    [__init__] builds it, and an event without a failure, whose level, if
    it has one, can be hashed and whose [syslogPriority], if it has one,
    is an integer to [int]: when the formatter yields an absent value or
    the empty text, the resolved text is empty, the call makes no
    submission and raises nothing. *)
Theorem empty_text_makes_no_submission self w :
  Wide._encoding self = None →
  Wide.the_event w !! "log_failure" = None →
  Wide.formatEvent self (Wide.the_event w) = None ∨
    Wide.formatEvent self (Wide.the_event w) = Some "" →
  (∀ v, Wide.the_event w !! "log_level" = Some v → Wide.hashable v = true) →
  (∀ v, Wide.the_event w !! "syslogPriority" = Some v →
        ∃ n, wint v = Returned n) →
  (∃ priority, wresolve self w = (Returned ("", priority), w)) ∧
  wcall self w = (Returned tt, w).
Proof.
  intros Henc Hfail Hfmt Hhash Hint.
  assert (Wide.formatted self (Wide.the_event w) = "") as Htext.
  { unfold Wide.formatted. by destruct Hfmt as [-> | ->]. }
  assert (∃ p, wresolve self w = (Returned ("", p), w)) as [p Hres].
  { destruct (Wide.the_event w !! "syslogPriority") as [v|] eqn:Hprio.
    - destruct (Hint v eq_refl) as [n Hn]. exists n.
      rewrite (wide_resolve_override _ _ _ _ Hhash Hfail Hprio Hn).
      unfold Wide.encoded. by rewrite Henc, Htext.
    - eexists. rewrite (wide_resolve_level _ _ Hhash Hfail Hprio).
      unfold Wide.encoded. by rewrite Henc, Htext. }
  split; [by exists p|].
  by rewrite (wide_call_resolved _ _ _ _ Hres).
Qed.

End WideFacts.

(** X6: the [try] block around [toSyslogLevelMapping[event['log_level']]]
    catches the [KeyError] of a missing level and of a level outside the
    table and then yields [LOG_INFO]; for a level of the table it yields
    the table's priority.  A level that cannot be hashed raises
    [TypeError], which [except KeyError] lets through.  In every case the
    world is left as it is. *)
Theorem level_lookup_outcomes w :
  match Wide.the_event w !! "log_level" with
  | None => Wide.priority_by_level w = (Returned stdsyslog.LOG_INFO, w)
  | Some (Wide.VLevel l) =>
      Wide.priority_by_level w = (Returned (level_priority l), w)
  | Some v =>
      Wide.priority_by_level w =
        if Wide.hashable v then (Returned stdsyslog.LOG_INFO, w)
        else (Raised TypeError, w)
  end.
Proof.
  destruct (Wide.the_event w !! "log_level") as [v|] eqn:Hlevel.
  - destruct (Wide.hashable v) eqn:Hhash.
    + rewrite wide_priority_by_level_run
        by (intros v' Hv'; congruence).
      unfold Wide.base_priority. rewrite Hlevel.
      by destruct v.
    + rewrite (wide_priority_by_level_unhashable _ _ Hlevel Hhash).
      by destruct v.
  - rewrite wide_priority_by_level_run by (intros v' Hv'; congruence).
    unfold Wide.base_priority. by rewrite Hlevel.
Qed.

(** C5, as the claim states it, fails: a list in the place of the level
    is none of the five symbolic levels, and with no failure and no
    [syslogPriority] in the event the resolution raises [TypeError]. *)
Lemma unhashable_level_raises :
  (∀ l, Wide.the_event Wide.list_level_world !! "log_level"
        ≠ Some (Wide.VLevel l)) ∧
  Wide.the_event Wide.list_level_world !! "log_failure" = None ∧
  Wide.the_event Wide.list_level_world !! "syslogPriority" = None ∧
  Wide.resolve int_of_decimal encode_ascii
    (Wide.observer_saying (Some "hello")) Wide.list_level_world
  = (Raised TypeError, Wide.list_level_world).
Proof. repeat split. intros l. discriminate. Qed.

Lemma hashable_unknown_level_gives_info_witness :
  (∀ l, Wide.the_event Wide.trace_world !! "log_level"
        ≠ Some (Wide.VLevel l)) ∧
  (∀ v, Wide.the_event Wide.trace_world !! "log_level" = Some v →
        Wide.hashable v = true) ∧
  Wide.the_event Wide.trace_world !! "log_failure" = None ∧
  Wide.the_event Wide.trace_world !! "syslogPriority" = None ∧
  ∃ text,
    Wide.resolve int_of_decimal encode_ascii
      (Wide.observer_saying (Some "hello")) Wide.trace_world
    = (Returned (text, stdsyslog.LOG_INFO), Wide.trace_world).
Proof.
  assert (∀ v, Wide.the_event Wide.trace_world !! "log_level" = Some v →
               Wide.hashable v = true) as Hhash.
  { intros v Hv. injection Hv as <-. reflexivity. }
  split; [intros l; discriminate|]. split; [exact Hhash|].
  split; [reflexivity|]. split; [reflexivity|].
  apply (hashable_unknown_level_gives_info int_of_decimal encode_ascii
           (Wide.observer_saying (Some "hello")) Wide.trace_world);
    [intros l; discriminate | exact Hhash | reflexivity | reflexivity].
Defined.

(** C7, as the claim states it, fails: with an absent formatted text the
    call submits when the event has a failure, and it raises when the
    event's [syslogPriority] is no integer or its level cannot be
    hashed. *)
Lemma absent_text_is_not_always_skipped :
  Wide.__call__ int_of_decimal encode_ascii
    (Wide.observer_saying None) Wide.failure_world =
    (Returned tt,
     Wide.World (Wide.the_event Wide.failure_world) []
       [ Submission stdsyslog_syslog stdsyslog.LOG_ALERT (nl +:+ "TB...");
         Submission stdsyslog_syslog stdsyslog.LOG_ALERT (nl +:+ "TB...") ])
  ∧
  Wide.__call__ int_of_decimal encode_ascii
    (Wide.observer_saying None) Wide.named_priority_world =
    (Raised ValueError, Wide.named_priority_world)
  ∧
  Wide.__call__ int_of_decimal encode_ascii
    (Wide.observer_saying None) Wide.list_level_world =
    (Raised TypeError, Wide.list_level_world).
Proof. repeat split. Qed.

Lemma empty_text_makes_no_submission_witness :
  Wide._encoding (Wide.observer_saying None) = None ∧
  Wide.the_event Wide.notice_world !! "log_failure" = None ∧
  (Wide.formatEvent (Wide.observer_saying None)
     (Wide.the_event Wide.notice_world) = None ∨
   Wide.formatEvent (Wide.observer_saying None)
     (Wide.the_event Wide.notice_world) = Some "") ∧
  (∀ v, Wide.the_event Wide.notice_world !! "log_level" = Some v →
        Wide.hashable v = true) ∧
  (∀ v, Wide.the_event Wide.notice_world !! "syslogPriority" = Some v →
        ∃ n, Wide.py_int int_of_decimal v = Returned n) ∧
  (∃ priority,
     Wide.resolve int_of_decimal encode_ascii
       (Wide.observer_saying None) Wide.notice_world
     = (Returned ("", priority), Wide.notice_world)) ∧
  Wide.__call__ int_of_decimal encode_ascii
    (Wide.observer_saying None) Wide.notice_world
  = (Returned tt, Wide.notice_world).
Proof.
  assert (∀ v, Wide.the_event Wide.notice_world !! "log_level" = Some v →
               Wide.hashable v = true) as Hhash.
  { intros v Hv. injection Hv as <-. reflexivity. }
  assert (∀ v, Wide.the_event Wide.notice_world !! "syslogPriority" = Some v →
               ∃ n, Wide.py_int int_of_decimal v = Returned n) as Hint.
  { intros v Hv. injection Hv as <-. by exists 5. }
  split; [reflexivity|]. split; [reflexivity|]. split; [by left|].
  split; [exact Hhash|]. split; [exact Hint|].
  apply (empty_text_makes_no_submission int_of_decimal encode_ascii
           (Wide.observer_saying None) Wide.notice_world);
    [reflexivity | reflexivity | by left | exact Hhash | exact Hint].
Defined.
